(** * A shallow embedding of src/src/CachetAPI.js

    The client class [CachetAPI] wraps an axios instance.  Every operation is
    an async method that builds a path, awaits one axios call inside a
    [try]/[catch], re-raises through [createError] on failure, and then
    unwraps the axios response.

    The development has three layers:
    - [Js]: the JavaScript values the code handles, with the parts of the
      language it relies on (truthiness, property access, [ToString],
      [JSON.stringify]);
    - [Prog]: a small effect program type for async code that awaits axios
      requests and writes to [console.error], with its runner;
    - [Cachet]: the class itself, one definition per method. *)

From Stdlib Require Import String Ascii List ZArith Bool Lia.
Import ListNotations.
Open Scope string_scope.
Set Warnings "-register-all".

Module Js.

(** The prototype of an object, as far as the code can observe it: plain
    object literals, and [Error] objects (whose [name] and [message] are not
    enumerable own fields, so they are kept apart from [fields]). *)
Inductive objclass :=
| PlainObject
| ErrorObject (name message : string).

(** JavaScript values.  Numbers are the integral ones (the code only sees
    HTTP status codes and ids); objects are association lists of their
    enumerable own properties, in insertion order. *)
Inductive value :=
| JUndefined
| JNull
| JBool (b : bool)
| JNum (z : Z)
| JStr (s : string)
| JArr (items : list value)
| JObj (cls : objclass) (fields : list (string * value)).

(** ToBoolean. *)
Definition truthy (v : value) : bool :=
  match v with
  | JUndefined | JNull => false
  | JBool b => b
  | JNum z => negb (Z.eqb z 0)
  | JStr s => negb (String.eqb s "")
  | JArr _ | JObj _ _ => true
  end.

Fixpoint assoc (k : string) (fs : list (string * value)) : option value :=
  match fs with
  | [] => None
  | (k', v) :: fs' => if String.eqb k k' then Some v else assoc k fs'
  end.

(** Decimal rendering of integers, as Number.prototype.toString does. *)
Definition digit (n : N) : ascii := ascii_of_N (48 + n).

Fixpoint digits_fuel (fuel : nat) (n : N) (acc : string) : string :=
  match fuel with
  | O => acc
  | S fuel' =>
      let acc' := String (digit (N.modulo n 10)) acc in
      let q := N.div n 10 in
      if N.eqb q 0 then acc' else digits_fuel fuel' q acc'
  end.

Definition N_to_string (n : N) : string := digits_fuel (N.to_nat (N.log2 n) + 1) n "".

Definition Z_to_string (z : Z) : string :=
  match z with
  | Zneg p => "-" ++ N_to_string (Npos p)
  | _ => N_to_string (Z.to_N z)
  end.

Fixpoint join (sep : string) (l : list string) : string :=
  match l with
  | [] => ""
  | [s] => s
  | s :: l' => s ++ sep ++ join sep l'
  end.

(** Error.prototype.toString. *)
Definition error_to_string (name message : string) : string :=
  if String.eqb name "" then message
  else if String.eqb message "" then name
  else name ++ ": " ++ message.

(** ToString (what [+] does to a non-string operand next to a string, and
    what [v.toString()] returns for every value that has a [toString]). *)
Fixpoint to_string (v : value) : string :=
  match v with
  | JUndefined => "undefined"
  | JNull => "null"
  | JBool true => "true"
  | JBool false => "false"
  | JNum z => Z_to_string z
  | JStr s => s
  | JArr items =>
      (* Array.prototype.join: undefined and null elements print as "" *)
      join "," ((fix go (l : list value) : list string :=
                   match l with
                   | [] => []
                   | JUndefined :: l' | JNull :: l' => "" :: go l'
                   | x :: l' => to_string x :: go l'
                   end) items)
  | JObj PlainObject _ => "[object Object]"
  | JObj (ErrorObject n m) _ => error_to_string n m
  end.

(** The JSON string literal of a string: quote, backslash and control
    characters escaped. *)
Definition hex_digit (n : N) : ascii :=
  if N.ltb n 10 then ascii_of_N (48 + n) else ascii_of_N (87 + n).

(** The double-quote character. *)
Definition dq : string := String (ascii_of_nat 34) EmptyString.

Fixpoint json_quote_chars (s : string) : string :=
  match s with
  | EmptyString => ""
  | String c s' =>
      let n := N_of_ascii c in
      let esc :=
        if N.eqb n 34 then "\" ++ dq
        else if N.eqb n 92 then "\\"
        else if N.eqb n 10 then "\n"
        else if N.eqb n 13 then "\r"
        else if N.eqb n 9 then "\t"
        else if N.eqb n 8 then "\b"
        else if N.eqb n 12 then "\f"
        else if N.ltb n 32 then
          "\u00" ++ String (hex_digit (N.div n 16)) (String (hex_digit (N.modulo n 16)) "")
        else String c "" in
      esc ++ json_quote_chars s'
  end.

Definition json_quote (s : string) : string := dq ++ json_quote_chars s ++ dq.

(** JSON.stringify; [None] is its [undefined] result. *)
Fixpoint json_stringify (v : value) : option string :=
  match v with
  | JUndefined => None
  | JNull => Some "null"
  | JBool true => Some "true"
  | JBool false => Some "false"
  | JNum z => Some (Z_to_string z)
  | JStr s => Some (json_quote s)
  | JArr items =>
      Some ("[" ++ join ","
              ((fix go (l : list value) : list string :=
                  match l with
                  | [] => []
                  | x :: l' =>
                      match json_stringify x with
                      | Some s => s
                      | None => "null"
                      end :: go l'
                  end) items) ++ "]")
  | JObj _ fields =>
      Some ("{" ++ join ","
              ((fix go (l : list (string * value)) : list string :=
                  match l with
                  | [] => []
                  | (k, x) :: l' =>
                      match json_stringify x with
                      | Some s => (json_quote k ++ ":" ++ s) :: go l'
                      | None => go l'
                      end
                  end) fields) ++ "}")
  end.

(** [s + JSON.stringify(v)]: the [undefined] result prints as "undefined". *)
Definition json_text (v : value) : string :=
  match json_stringify v with
  | Some s => s
  | None => "undefined"
  end.

(** A thrown TypeError (reading a property of undefined or null). *)
Definition type_error : value :=
  JObj (ErrorObject "TypeError" "Cannot read properties of undefined") [].

(** [new Error(msg)]. *)
Definition new_error (msg : string) : value := JObj (ErrorObject "Error" msg) [].

(** Property read [v.k]: [inl] is the thrown exception. *)
Definition get_prop (v : value) (k : string) : value + value :=
  match v with
  | JUndefined | JNull => inl type_error
  | JObj cls fields =>
      match assoc k fields with
      | Some x => inr x
      | None =>
          match cls, k with
          | ErrorObject n _, "name" => inr (JStr n)
          | ErrorObject _ m, "message" => inr (JStr m)
          | _, _ => inr JUndefined
          end
      end
  | JArr items => if String.eqb k "length" then inr (JNum (Z.of_nat (length items))) else inr JUndefined
  | JStr s => if String.eqb k "length" then inr (JNum (Z.of_nat (String.length s))) else inr JUndefined
  | JBool _ | JNum _ => inr JUndefined
  end.

(** The method call [v.toString()]. *)
Definition call_to_string (v : value) : value + string :=
  match v with
  | JUndefined | JNull => inl type_error
  | _ => inr (to_string v)
  end.

End Js.

Module Prog.
Import Js.

(** An axios instance, as [axios.create] configures it. *)
Record axios := mk_axios {
  baseURL : value;
  headers : list (string * value)
}.

Inductive method := GET | POST | PUT | DELETE.

(** The method name as the code passes it to [createError]. *)
Definition method_name (m : method) : string :=
  match m with GET => "GET" | POST => "POST" | PUT => "PUT" | DELETE => "DELETE" end.

(** How an awaited axios call settles: a response object, or a rejection. *)
Inductive http_result :=
| Resolved (response : value)
| Rejected (error : value).

(** How an async function settles. *)
Inductive completion (A : Type) :=
| Normal (a : A)
| Throw (e : value).
Arguments Normal {A} a.
Arguments Throw {A} e.

(** Async code: it ends, or awaits an axios request ([data] is the request
    body of [post] and [put]), or writes to [console.error]. *)
Inductive prog (A : Type) :=
| Done (c : completion A)
| Request (api : axios) (m : method) (url : string) (data : option value)
          (k : http_result -> prog A)
| ConsoleError (v : value) (k : prog A).
Arguments Done {A} c.
Arguments Request {A} api m url data k.
Arguments ConsoleError {A} v k.

Definition ret {A} (a : A) : prog A := Done (Normal a).
Definition throw {A} (e : value) : prog A := Done (Throw e).

(** A synchronous computation that may throw. *)
Definition lift {A} (r : value + A) : prog A :=
  match r with inl e => throw e | inr a => ret a end.

Fixpoint bind {A B} (p : prog A) (f : A -> prog B) : prog B :=
  match p with
  | Done (Normal a) => f a
  | Done (Throw e) => Done (Throw e)
  | Request api m u d k => Request api m u d (fun r => bind (k r) f)
  | ConsoleError v k => ConsoleError v (bind k f)
  end.

Notation "'let*' x := p 'in' q" := (bind p (fun x => q))
  (at level 200, x name, p at level 100, q at level 200).

(** [try { p } catch (e) { h(e) }]. *)
Fixpoint try_catch {A} (p : prog A) (h : value -> prog A) : prog A :=
  match p with
  | Done (Normal a) => Done (Normal a)
  | Done (Throw e) => h e
  | Request api m u d k => Request api m u d (fun r => try_catch (k r) h)
  | ConsoleError v k => ConsoleError v (try_catch k h)
  end.

(** [await api.get(url)] and its siblings. *)
Definition await_axios (api : axios) (m : method) (url : string) (data : option value)
  : prog value :=
  Request api m url data (fun r =>
    match r with
    | Resolved resp => ret resp
    | Rejected e => throw e
    end).

Definition console_error (v : value) : prog unit := ConsoleError v (ret tt).

(** Observable events of a run. *)
Inductive event :=
| EvRequest (api : axios) (m : method) (url : string) (data : option value)
| EvConsoleError (v : value).

(** The remote service and the transport: how each request settles. *)
Definition network := axios -> method -> string -> option value -> http_result.

Fixpoint run {A} (net : network) (p : prog A) : list event * completion A :=
  match p with
  | Done c => ([], c)
  | Request api m u d k =>
      let '(t, c) := run net (k (net api m u d)) in (EvRequest api m u d :: t, c)
  | ConsoleError v k =>
      let '(t, c) := run net k in (EvConsoleError v :: t, c)
  end.

Definition is_request (e : event) : bool :=
  match e with EvRequest _ _ _ _ => true | EvConsoleError _ => false end.

Definition request_count (t : list event) : nat := length (filter is_request t).

End Prog.

Module Cachet.
Import Js Prog.

(** A [CachetAPI] instance: [this.options] and [this.api]. *)
Record CachetAPI := mk_CachetAPI {
  options : value;
  api : axios
}.

Definition config_error : value := new_error "Error! options.url a is required option!".

(** [constructor(options)]. *)
Definition CachetAPI_constructor (opts : value) : prog CachetAPI :=
  if negb (truthy opts) then throw config_error else
  let* url := lift (get_prop opts "url") in
  if negb (truthy url) then throw config_error else
  let* base := lift (get_prop opts "url") in
  let* token := lift (get_prop opts "apiToken") in
  ret {| options := opts;
         api := {| baseURL := base; headers := [("X-Cachet-Token", token)] |} |}.

(** [createError(url, type, error)].  It returns the new error, after
    logging the original one. *)
Definition createError (url type : string) (error : value) : prog value :=
  let* has_response :=
    (if truthy error then
       let* r := lift (get_prop error "response") in ret (truthy r)
     else ret false) in
  let* extraErrorText :=
    (if has_response then
       let* r := lift (get_prop error "response") in
       let* status := lift (get_prop r "status") in
       let t1 := if truthy status then to_string status ++ " " else "" in
       let* statusText := lift (get_prop r "statusText") in
       let t2 := if truthy statusText then to_string statusText ++ " | " else "" in
       let* data := lift (get_prop r "data") in
       let t3 := if truthy data then json_text data else "" in
       ret ("" ++ t1 ++ t2 ++ t3)
     else lift (call_to_string error)) in
  let* _ := console_error error in
  ret (new_error ("Unable to " ++ type ++ " " ++ url ++ ": " ++ extraErrorText)).

(** The [try { response = await this.api.<m>(url[, data]) } catch (e)
    { throw this.createError(url, '<M>', e) }] block every method starts with. *)
Definition call_api (self : CachetAPI) (m : method) (url : string) (data : option value)
  : prog value :=
  try_catch (await_axios (api self) m url data)
    (fun e => let* err := createError url (method_name m) e in throw err).

(** [return response.data.data]. *)
Definition unwrap_both (response : value) : prog value :=
  let* d := lift (get_prop response "data") in
  lift (get_prop d "data").

(** [if (with_meta) return response.data else return response.data.data]. *)
Definition unwrap_with_meta (with_meta response : value) : prog value :=
  if truthy with_meta then lift (get_prop response "data")
  else unwrap_both response.

Section Methods.
Variable self : CachetAPI.

Definition ping : prog value :=
  let url := "/v1/ping" in
  let* response := call_api self GET url None in unwrap_both response.

Definition getVersion (with_meta : value) : prog value :=
  let url := "/v1/version" in
  let* response := call_api self GET url None in unwrap_with_meta with_meta response.

(* components *)
Definition getComponents (with_meta : value) : prog value :=
  let url := "/v1/components" in
  let* response := call_api self GET url None in unwrap_with_meta with_meta response.

Definition getComponent (component_id : value) : prog value :=
  let url := "/v1/components/" ++ to_string component_id in
  let* response := call_api self GET url None in unwrap_both response.

Definition addComponent (component : value) : prog value :=
  let url := "/v1/components" in
  let* response := call_api self POST url (Some component) in unwrap_both response.

Definition updateComponent (component_id component : value) : prog value :=
  let url := "/v1/components/" ++ to_string component_id in
  let* response := call_api self PUT url (Some component) in unwrap_both response.

Definition deleteComponent (component_id : value) : prog value :=
  let url := "/v1/components/" ++ to_string component_id in
  let* _ := call_api self DELETE url None in ret (JBool true).

(* component groups *)
Definition getComponentGroups (with_meta : value) : prog value :=
  let url := "/v1/components/groups" in
  let* response := call_api self GET url None in unwrap_with_meta with_meta response.

Definition getComponentGroup (group_id : value) : prog value :=
  let url := "/v1/components/groups/" ++ to_string group_id in
  let* response := call_api self GET url None in unwrap_both response.

Definition addComponentGroup (group : value) : prog value :=
  let url := "/v1/components/groups" in
  let* response := call_api self POST url (Some group) in unwrap_both response.

Definition updateComponentGroup (group_id group : value) : prog value :=
  let url := "/v1/components/groups/" ++ to_string group_id in
  let* response := call_api self PUT url (Some group) in unwrap_both response.

Definition deleteComponentGroup (group_id : value) : prog value :=
  let url := "/v1/components/groups/" ++ to_string group_id in
  let* _ := call_api self DELETE url None in ret (JBool true).

(* incidents *)
Definition getIncidents (with_meta : value) : prog value :=
  let url := "/v1/incidents" in
  let* response := call_api self GET url None in unwrap_with_meta with_meta response.

Definition getIncident (incident_id : value) : prog value :=
  let url := "/v1/incidents/" ++ to_string incident_id in
  let* response := call_api self GET url None in unwrap_both response.

Definition addIncident (incident : value) : prog value :=
  let url := "/v1/incidents" in
  let* response := call_api self POST url (Some incident) in unwrap_both response.

Definition updateIncident (incident_id incident : value) : prog value :=
  let url := "/v1/incidents/" ++ to_string incident_id in
  let* response := call_api self PUT url (Some incident) in unwrap_both response.

Definition deleteIncident (incident_id : value) : prog value :=
  let url := "/v1/incidents/" ++ to_string incident_id in
  let* _ := call_api self DELETE url None in ret (JBool true).

(* incident updates *)
Definition getIncidentUpdates (incident_id with_meta : value) : prog value :=
  let url := "/v1/incidents/" ++ to_string incident_id ++ "/updates" in
  let* response := call_api self GET url None in unwrap_with_meta with_meta response.

Definition getIncidentUpdate (incident_id update_id : value) : prog value :=
  let url := "/v1/incidents/" ++ to_string incident_id ++ "/updates/" ++ to_string update_id in
  let* response := call_api self GET url None in unwrap_both response.

Definition addIncidentUpdate (incident_id update : value) : prog value :=
  let url := "/v1/incidents/" ++ to_string incident_id ++ "/updates" in
  let* response := call_api self POST url (Some update) in unwrap_both response.

Definition updateIncidentUpdate (incident_id update_id update : value) : prog value :=
  let url := "/v1/incidents/" ++ to_string incident_id ++ "/updates/" ++ to_string update_id in
  let* response := call_api self PUT url (Some update) in unwrap_both response.

Definition deleteIncidentUpdate (incident_id update_id : value) : prog value :=
  let url := "/v1/incidents/" ++ to_string incident_id ++ "/updates/" ++ to_string update_id in
  let* _ := call_api self DELETE url None in ret (JBool true).

(* metrics *)
Definition getMetrics (with_meta : value) : prog value :=
  let url := "/v1/metrics" in
  let* response := call_api self GET url None in unwrap_with_meta with_meta response.

Definition getMetric (metric_id : value) : prog value :=
  let url := "/v1/metrics/" ++ to_string metric_id in
  let* response := call_api self GET url None in unwrap_both response.

Definition addMetric (metric : value) : prog value :=
  let url := "/v1/metrics" in
  let* response := call_api self POST url (Some metric) in unwrap_both response.

Definition deleteMetric (metric_id : value) : prog value :=
  let url := "/v1/metrics/" ++ to_string metric_id in
  let* _ := call_api self DELETE url None in ret (JBool true).

(* metric points: [getMetricPoints(metric_id)] has no [with_meta] parameter *)
Definition getMetricPoints (metric_id : value) : prog value :=
  let url := "/v1/metrics/" ++ to_string metric_id ++ "/points" in
  let* response := call_api self GET url None in unwrap_both response.

Definition addMetricPoint (metric_id point : value) : prog value :=
  let url := "/v1/metrics/" ++ to_string metric_id ++ "/points" in
  let* response := call_api self POST url (Some point) in unwrap_both response.

Definition deleteMetricPoint (metric_id point_id : value) : prog value :=
  let url := "/v1/metrics/" ++ to_string metric_id ++ "/points/" ++ to_string point_id in
  let* _ := call_api self DELETE url None in ret (JBool true).

(* subscribers: [getSubscribers()] has no parameter *)
Definition getSubscribers : prog value :=
  let url := "/v1/subscribers" in
  let* response := call_api self GET url None in unwrap_both response.

Definition addSubscriber (subscriber : value) : prog value :=
  let url := "/v1/subscribers" in
  let* response := call_api self POST url (Some subscriber) in unwrap_both response.

Definition deleteSubscriber (subscriber_id : value) : prog value :=
  let url := "/v1/subscribers/" ++ to_string subscriber_id in
  let* _ := call_api self DELETE url None in ret (JBool true).

End Methods.

(** A call of one of the public methods, with its arguments. *)
Inductive op :=
| OPing
| OGetVersion (with_meta : value)
| OGetComponents (with_meta : value)
| OGetComponent (component_id : value)
| OAddComponent (component : value)
| OUpdateComponent (component_id component : value)
| ODeleteComponent (component_id : value)
| OGetComponentGroups (with_meta : value)
| OGetComponentGroup (group_id : value)
| OAddComponentGroup (group : value)
| OUpdateComponentGroup (group_id group : value)
| ODeleteComponentGroup (group_id : value)
| OGetIncidents (with_meta : value)
| OGetIncident (incident_id : value)
| OAddIncident (incident : value)
| OUpdateIncident (incident_id incident : value)
| ODeleteIncident (incident_id : value)
| OGetIncidentUpdates (incident_id with_meta : value)
| OGetIncidentUpdate (incident_id update_id : value)
| OAddIncidentUpdate (incident_id update : value)
| OUpdateIncidentUpdate (incident_id update_id update : value)
| ODeleteIncidentUpdate (incident_id update_id : value)
| OGetMetrics (with_meta : value)
| OGetMetric (metric_id : value)
| OAddMetric (metric : value)
| ODeleteMetric (metric_id : value)
| OGetMetricPoints (metric_id : value)
| OAddMetricPoint (metric_id point : value)
| ODeleteMetricPoint (metric_id point_id : value)
| OGetSubscribers
| OAddSubscriber (subscriber : value)
| ODeleteSubscriber (subscriber_id : value).

Definition invoke (self : CachetAPI) (o : op) : prog value :=
  match o with
  | OPing => ping self
  | OGetVersion w => getVersion self w
  | OGetComponents w => getComponents self w
  | OGetComponent i => getComponent self i
  | OAddComponent c => addComponent self c
  | OUpdateComponent i c => updateComponent self i c
  | ODeleteComponent i => deleteComponent self i
  | OGetComponentGroups w => getComponentGroups self w
  | OGetComponentGroup i => getComponentGroup self i
  | OAddComponentGroup g => addComponentGroup self g
  | OUpdateComponentGroup i g => updateComponentGroup self i g
  | ODeleteComponentGroup i => deleteComponentGroup self i
  | OGetIncidents w => getIncidents self w
  | OGetIncident i => getIncident self i
  | OAddIncident x => addIncident self x
  | OUpdateIncident i x => updateIncident self i x
  | ODeleteIncident i => deleteIncident self i
  | OGetIncidentUpdates i w => getIncidentUpdates self i w
  | OGetIncidentUpdate i u => getIncidentUpdate self i u
  | OAddIncidentUpdate i x => addIncidentUpdate self i x
  | OUpdateIncidentUpdate i u x => updateIncidentUpdate self i u x
  | ODeleteIncidentUpdate i u => deleteIncidentUpdate self i u
  | OGetMetrics w => getMetrics self w
  | OGetMetric i => getMetric self i
  | OAddMetric x => addMetric self x
  | ODeleteMetric i => deleteMetric self i
  | OGetMetricPoints i => getMetricPoints self i
  | OAddMetricPoint i p => addMetricPoint self i p
  | ODeleteMetricPoint i p => deleteMetricPoint self i p
  | OGetSubscribers => getSubscribers self
  | OAddSubscriber s => addSubscriber self s
  | ODeleteSubscriber i => deleteSubscriber self i
  end.

(** The request body each method hands to axios: the record argument of
    [post] and [put], none for [get] and [delete]. *)
Definition op_payload (o : op) : option value :=
  match o with
  | OAddComponent c | OUpdateComponent _ c => Some c
  | OAddComponentGroup g | OUpdateComponentGroup _ g => Some g
  | OAddIncident x | OUpdateIncident _ x => Some x
  | OAddIncidentUpdate _ x | OUpdateIncidentUpdate _ _ x => Some x
  | OAddMetric x => Some x
  | OAddMetricPoint _ x => Some x
  | OAddSubscriber x => Some x
  | _ => None
  end.

End Cachet.

(** The endpoint table and operation shapes of the spec (sections 4.2 and 6),
    to be compared with the methods above. *)
Module Spec.
Import Js Prog Cachet.

Fixpoint split_on (c : ascii) (s : string) : list string :=
  match s with
  | EmptyString => [""]
  | String x s' =>
      let rest := split_on c s' in
      if Ascii.eqb x c then "" :: rest
      else match rest with
           | seg :: segs => String x seg :: segs
           | [] => [String x ""]
           end
  end.

(** A path segment [:name] is replaced by its argument, as [+] prints it. *)
Definition fill_segment (args : list (string * value)) (seg : string) : string :=
  match seg with
  | String c name =>
      if Ascii.eqb c ":"%char then
        match assoc name args with Some v => to_string v | None => seg end
      else seg
  | EmptyString => seg
  end.

Definition fill (template : string) (args : list (string * value)) : string :=
  join "/" (map (fill_segment args) (split_on "/"%char template)).

(** The row of the endpoint table for each operation: method, path template
    and the arguments interpolated into it. *)
Definition endpoint (o : op) : method * string * list (string * value) :=
  match o with
  | OPing => (GET, "/v1/ping", [])
  | OGetVersion _ => (GET, "/v1/version", [])
  | OGetComponents _ => (GET, "/v1/components", [])
  | OGetComponent i => (GET, "/v1/components/:id", [("id", i)])
  | OAddComponent _ => (POST, "/v1/components", [])
  | OUpdateComponent i _ => (PUT, "/v1/components/:id", [("id", i)])
  | ODeleteComponent i => (DELETE, "/v1/components/:id", [("id", i)])
  | OGetComponentGroups _ => (GET, "/v1/components/groups", [])
  | OGetComponentGroup i => (GET, "/v1/components/groups/:id", [("id", i)])
  | OAddComponentGroup _ => (POST, "/v1/components/groups", [])
  | OUpdateComponentGroup i _ => (PUT, "/v1/components/groups/:id", [("id", i)])
  | ODeleteComponentGroup i => (DELETE, "/v1/components/groups/:id", [("id", i)])
  | OGetIncidents _ => (GET, "/v1/incidents", [])
  | OGetIncident i => (GET, "/v1/incidents/:id", [("id", i)])
  | OAddIncident _ => (POST, "/v1/incidents", [])
  | OUpdateIncident i _ => (PUT, "/v1/incidents/:id", [("id", i)])
  | ODeleteIncident i => (DELETE, "/v1/incidents/:id", [("id", i)])
  | OGetIncidentUpdates i _ =>
      (GET, "/v1/incidents/:incident_id/updates", [("incident_id", i)])
  | OGetIncidentUpdate i u =>
      (GET, "/v1/incidents/:incident_id/updates/:id", [("incident_id", i); ("id", u)])
  | OAddIncidentUpdate i _ =>
      (POST, "/v1/incidents/:incident_id/updates", [("incident_id", i)])
  | OUpdateIncidentUpdate i u _ =>
      (PUT, "/v1/incidents/:incident_id/updates/:id", [("incident_id", i); ("id", u)])
  | ODeleteIncidentUpdate i u =>
      (DELETE, "/v1/incidents/:incident_id/updates/:id", [("incident_id", i); ("id", u)])
  | OGetMetrics _ => (GET, "/v1/metrics", [])
  | OGetMetric i => (GET, "/v1/metrics/:id", [("id", i)])
  | OAddMetric _ => (POST, "/v1/metrics", [])
  | ODeleteMetric i => (DELETE, "/v1/metrics/:id", [("id", i)])
  | OGetMetricPoints i => (GET, "/v1/metrics/:metric_id/points", [("metric_id", i)])
  | OAddMetricPoint i _ => (POST, "/v1/metrics/:metric_id/points", [("metric_id", i)])
  | ODeleteMetricPoint i p =>
      (DELETE, "/v1/metrics/:metric_id/points/:id", [("metric_id", i); ("id", p)])
  | OGetSubscribers => (GET, "/v1/subscribers", [])
  | OAddSubscriber _ => (POST, "/v1/subscribers", [])
  | ODeleteSubscriber i => (DELETE, "/v1/subscribers/:id", [("id", i)])
  end.

Definition endpoint_method (o : op) : method := fst (fst (endpoint o)).
Definition endpoint_path (o : op) : string := let '(_, t, args) := endpoint o in fill t args.

(** ping and the single-record operations (get, create, update of one record). *)
Definition single_record (o : op) : bool :=
  match o with
  | OPing | OGetComponent _ | OAddComponent _ | OUpdateComponent _ _
  | OGetComponentGroup _ | OAddComponentGroup _ | OUpdateComponentGroup _ _
  | OGetIncident _ | OAddIncident _ | OUpdateIncident _ _
  | OGetIncidentUpdate _ _ | OAddIncidentUpdate _ _ | OUpdateIncidentUpdate _ _ _
  | OGetMetric _ | OAddMetric _ | OAddMetricPoint _ _ | OAddSubscriber _ => true
  | _ => false
  end.

End Spec.

(** Concrete values for the examples: the client of the test suite and the
    shapes of axios responses and errors. *)
Module Samples.
Import Js Prog Cachet.

Definition demo_url : value := JStr "https://demo.cachethq.io/api".
Definition demo_token : value := JStr "9yMHsdioQosnyVK4iCVR".

Definition demo_options : value :=
  JObj PlainObject [("url", demo_url); ("apiToken", demo_token)].

Definition demo_client : CachetAPI :=
  {| options := demo_options;
     api := {| baseURL := demo_url; headers := [("X-Cachet-Token", demo_token)] |} |}.

(** An axios response object whose body is [body]. *)
Definition axios_response (body : value) : value :=
  JObj PlainObject [("data", body); ("status", JNum 200); ("statusText", JStr "OK")].

(** A service envelope around [payload]. *)
Definition envelope (payload : value) : value := JObj PlainObject [("data", payload)].

(** A list envelope with pagination metadata. *)
Definition list_envelope : value :=
  JObj PlainObject
    [("meta", JObj PlainObject [("pagination", JObj PlainObject [("total", JNum 1)])]);
     ("data", JArr [JObj PlainObject [("id", JNum 1)]])].

(** The error axios rejects with on a 404. *)
Definition not_found_body : value := JObj PlainObject [("message", JStr "Not Found")].
Definition not_found_response : value :=
  JObj PlainObject [("status", JNum 404); ("statusText", JStr "Not Found"); ("data", not_found_body)].
Definition axios_404 : value :=
  JObj (ErrorObject "Error" "Request failed with status code 404")
    [("response", not_found_response)].

(** An error whose response has neither status, statusText nor data. *)
Definition axios_empty_response : value :=
  JObj (ErrorObject "Error" "Request failed")
    [("response", JObj PlainObject [("status", JNum 0)])].

(** The error axios rejects with when no response arrived. *)
Definition network_error : value := JObj (ErrorObject "Error" "Network Error") [].

(** Networks answering every request the same way. *)
Definition answering (resp : value) : network := fun _ _ _ _ => Resolved resp.
Definition failing (e : value) : network := fun _ _ _ _ => Rejected e.

End Samples.

Module Facts.
Import Js Prog Cachet Spec.

(** Programs that issue no request. *)
Fixpoint no_request {A} (p : prog A) : Prop :=
  match p with
  | Done _ => True
  | Request _ _ _ _ _ => False
  | ConsoleError _ k => no_request k
  end.

Lemma run_bind {A B} (net : network) (p : prog A) (f : A -> prog B) :
  run net (bind p f) =
  let '(t, c) := run net p in
  match c with
  | Normal a => let '(t', c') := run net (f a) in (app t t', c')
  | Throw e => (t, Throw e)
  end.
Proof.
  induction p as [[a|e]|api m u d k IH|v k IH]; cbn.
  - destruct (run net (f a)); reflexivity.
  - reflexivity.
  - rewrite IH. destruct (run net (k (net api m u d))) as [t [a|e]]; cbn; [|reflexivity].
    destruct (run net (f a)); reflexivity.
  - rewrite IH. destruct (run net k) as [t [a|e]]; cbn; [|reflexivity].
    destruct (run net (f a)); reflexivity.
Qed.

Lemma no_request_bind {A B} (p : prog A) (f : A -> prog B) :
  no_request p -> (forall a, no_request (f a)) -> no_request (bind p f).
Proof.
  induction p as [[a|e]|api m u d k IH|v k IH]; cbn; auto.
Qed.

Lemma no_request_lift {A} (r : value + A) : no_request (lift r).
Proof. destruct r; exact I. Qed.

Lemma no_request_ret {A} (a : A) : no_request (ret a).
Proof. exact I. Qed.

Lemma no_request_throw {A} (e : value) : no_request (@throw A e).
Proof. exact I. Qed.

Lemma no_request_console_error (v : value) : no_request (console_error v).
Proof. exact I. Qed.

Create HintDb noreq.
#[local] Hint Resolve no_request_bind no_request_lift no_request_ret no_request_throw
  no_request_console_error : noreq.

Lemma no_request_createError (u t : string) (e : value) : no_request (createError u t e).
Proof.
  unfold createError.
  apply no_request_bind.
  - destruct (truthy e); auto with noreq.
  - intros []; auto 8 with noreq.
Qed.
#[local] Hint Resolve no_request_createError : noreq.

Lemma no_request_unwrap_both (r : value) : no_request (unwrap_both r).
Proof. unfold unwrap_both; auto with noreq. Qed.

Lemma no_request_unwrap_with_meta (w r : value) : no_request (unwrap_with_meta w r).
Proof. unfold unwrap_with_meta; destruct (truthy w); auto using no_request_unwrap_both with noreq. Qed.
#[local] Hint Resolve no_request_unwrap_both no_request_unwrap_with_meta : noreq.

(** A program with no request runs the same on every network, and its trace
    holds no request. *)
Lemma run_no_request {A} (p : prog A) (net : network) :
  no_request p -> request_count (fst (run net p)) = 0.
Proof.
  induction p as [c|api m u d k IH|v k IH]; cbn; intros H; try contradiction; auto.
  specialize (IH H). destruct (run net k) as [t c]; cbn in *. exact IH.
Qed.

(** The block every method starts with, when the request settles. *)
Lemma run_call_api_resolved (net : network) (self : CachetAPI) m u d resp
  (f : value -> prog value) :
  net (api self) m u d = Resolved resp ->
  run net (bind (call_api self m u d) f) =
  let '(t, c) := run net (f resp) in (EvRequest (api self) m u d :: t, c).
Proof. intros H. cbn. rewrite H. reflexivity. Qed.

Lemma run_call_api_rejected (net : network) (self : CachetAPI) m u d e
  (f : value -> prog value) :
  net (api self) m u d = Rejected e ->
  run net (bind (call_api self m u d) f) =
  let '(t, c) := run net (createError u (method_name m) e) in
  (EvRequest (api self) m u d :: t,
   match c with Normal err => Throw err | Throw x => Throw x end).
Proof.
  intros H. unfold call_api, await_axios. cbn [bind try_catch run]. rewrite H.
  cbn [try_catch throw]. rewrite run_bind, run_bind.
  destruct (run net (createError u (method_name m) e)) as [t [err|x]]; cbn;
    rewrite ?app_nil_r; reflexivity.
Qed.

(** Every method is such a block, followed by code that issues no request. *)
Lemma invoke_shape (self : CachetAPI) (o : op) :
  exists m u d f, invoke self o = bind (call_api self m u d) f /\
                  (forall v, no_request (f v)) /\
                  m = endpoint_method o /\ u = endpoint_path o.
Proof.
  destruct o; cbn [invoke];
    do 4 eexists; (split; [reflexivity|]);
    (split; [intros v; cbn beta; auto with noreq|]);
    unfold endpoint_method, endpoint_path; cbn;
    (split; [reflexivity|]);
    reflexivity.
Qed.

Lemma string_append_assoc (a b c : string) : (a ++ b) ++ c = a ++ b ++ c.
Proof. induction a as [|x a IH]; cbn; [reflexivity|]. rewrite IH. reflexivity. Qed.

Lemma request_count_request a m u d t :
  request_count (EvRequest a m u d :: t) = S (request_count t).
Proof. reflexivity. Qed.

(** [createError] when the caught error carries a (truthy) response. *)
Lemma run_createError_response (net : network) (u t : string) (e r s st d : value) :
  truthy e = true -> get_prop e "response" = inr r -> truthy r = true ->
  get_prop r "status" = inr s -> get_prop r "statusText" = inr st ->
  get_prop r "data" = inr d ->
  run net (createError u t e) =
  ([EvConsoleError e],
   Normal (new_error ("Unable to " ++ t ++ " " ++ u ++ ": " ++
     ((if truthy s then to_string s ++ " " else "") ++
      (if truthy st then to_string st ++ " | " else "") ++
      (if truthy d then json_text d else ""))))).
Proof.
  intros Hte He Htr Hs Hst Hd. unfold createError.
  rewrite Hte, He; cbn [bind lift ret]. rewrite Htr; cbn [bind lift ret].
  rewrite Hs; cbn [bind lift ret]. rewrite Hst; cbn [bind lift ret].
  rewrite Hd; cbn [bind lift ret console_error run]. reflexivity.
Qed.

(** [createError] when the caught error carries no response. *)
Lemma run_createError_no_response (net : network) (u t : string) (e r : value) :
  e <> JUndefined -> e <> JNull ->
  get_prop e "response" = inr r -> truthy r = false ->
  run net (createError u t e) =
  ([EvConsoleError e], Normal (new_error ("Unable to " ++ t ++ " " ++ u ++ ": " ++ to_string e))).
Proof.
  intros Hu Hn He Htr. unfold createError.
  assert (Hs : call_to_string e = inr (to_string e))
    by (destruct e; try congruence; reflexivity).
  destruct (truthy e); cbn [bind lift ret].
  - rewrite He; cbn [bind lift ret]. rewrite Htr; cbn [bind lift ret].
    rewrite Hs; cbn [bind lift ret console_error run]. reflexivity.
  - rewrite Hs; cbn [bind lift ret console_error run]. reflexivity.
Qed.

(** [createError] on a falsy caught value. *)
Lemma run_createError_falsy (net : network) (u t : string) (e : value) :
  e <> JUndefined -> e <> JNull -> truthy e = false ->
  run net (createError u t e) =
  ([EvConsoleError e], Normal (new_error ("Unable to " ++ t ++ " " ++ u ++ ": " ++ to_string e))).
Proof.
  intros Hu Hn Hf. unfold createError. rewrite Hf.
  assert (Hs : call_to_string e = inr (to_string e))
    by (destruct e; try congruence; reflexivity).
  cbn [bind lift ret]. rewrite Hs; cbn [bind lift ret console_error run]. reflexivity.
Qed.

Lemma get_prop_defined (v : value) (k : string) :
  v <> JUndefined -> v <> JNull -> exists x, get_prop v k = inr x.
Proof.
  intros Hu Hn. destruct v; try congruence; cbn;
    repeat match goal with |- context [match ?a with _ => _ end] => destruct a end; eauto.
Qed.

Lemma truthy_defined (v : value) : truthy v = true -> v <> JUndefined /\ v <> JNull.
Proof. destruct v; cbn; split; congruence. Qed.

(** [createError] returns an error for every caught value but undefined and null. *)
Lemma run_createError_defined (net : network) (u t : string) (e : value) :
  e <> JUndefined -> e <> JNull ->
  exists msg, run net (createError u t e) =
    ([EvConsoleError e], Normal (new_error ("Unable to " ++ t ++ " " ++ u ++ ": " ++ msg))).
Proof.
  intros Hu Hn.
  destruct (get_prop_defined e "response" Hu Hn) as [r He].
  destruct (truthy e) eqn:Hte; [destruct (truthy r) eqn:Htr|].
  - destruct (truthy_defined r Htr) as [Hru Hrn].
    destruct (get_prop_defined r "status" Hru Hrn) as [s Hs],
             (get_prop_defined r "statusText" Hru Hrn) as [st Hst],
             (get_prop_defined r "data" Hru Hrn) as [d Hd].
    eexists. apply run_createError_response with (r := r); [exact Hte|exact He|exact Htr|exact Hs|exact Hst|exact Hd].
  - eexists. apply run_createError_no_response with (r := r); assumption.
  - eexists. apply run_createError_falsy; assumption.
Qed.

(** Every operation issues exactly one request. *)
Lemma invoke_one_request (net : network) (self : CachetAPI) (o : op) :
  exists d t c, run net (invoke self o) =
    (EvRequest (api self) (endpoint_method o) (endpoint_path o) d :: t, c) /\
    request_count t = 0.
Proof.
  destruct (invoke_shape self o) as (m & u & d & f & Hi & Hf & -> & ->).
  rewrite Hi. exists d.
  destruct (net (api self) (endpoint_method o) (endpoint_path o) d) as [resp|e] eqn:N.
  - rewrite (run_call_api_resolved _ _ _ _ _ resp f N).
    pose proof (run_no_request (f resp) net (Hf resp)) as H0.
    destruct (run net (f resp)) as [t c]. eauto.
  - rewrite (run_call_api_rejected _ _ _ _ _ e f N).
    pose proof (run_no_request _ net (no_request_createError (endpoint_path o)
                  (method_name (endpoint_method o)) e)) as H0.
    destruct (run net (createError _ _ e)) as [t c]. eauto.
Qed.

End Facts.

Module Shapes.
Import Js Prog Cachet Spec Facts.

Lemma single_record_shape (self : CachetAPI) (o : op) :
  single_record o = true ->
  exists m u d, invoke self o = bind (call_api self m u d) unwrap_both.
Proof. destruct o; cbn [single_record invoke]; try discriminate; intros _; do 3 eexists; reflexivity. Qed.

Lemma delete_shape (self : CachetAPI) (i j : value) :
  Forall (fun o => exists m u d,
            invoke self o = bind (call_api self m u d) (fun _ => ret (JBool true)))
    [ODeleteComponent i; ODeleteComponentGroup i; ODeleteIncident i;
     ODeleteIncidentUpdate i j; ODeleteMetric i; ODeleteMetricPoint i j;
     ODeleteSubscriber i].
Proof. repeat constructor; cbn [invoke]; do 3 eexists; reflexivity. Qed.

Lemma with_meta_shape (self : CachetAPI) (w i : value) :
  Forall (fun o => exists m u d,
            invoke self o = bind (call_api self m u d) (unwrap_with_meta w))
    [OGetVersion w; OGetComponents w; OGetComponentGroups w; OGetIncidents w;
     OGetIncidentUpdates i w; OGetMetrics w].
Proof. repeat constructor; cbn [invoke]; do 3 eexists; reflexivity. Qed.

Lemma run_unwrap_both (net : network) (resp env v : value) :
  get_prop resp "data" = inr env -> get_prop env "data" = inr v ->
  run net (unwrap_both resp) = ([], Normal v).
Proof. intros H1 H2. unfold unwrap_both. rewrite H1; cbn [bind lift ret]. rewrite H2. reflexivity. Qed.

Lemma run_unwrap_both_throw (net : network) (resp : value) :
  get_prop resp "data" = inr JUndefined \/ get_prop resp "data" = inr JNull ->
  run net (unwrap_both resp) = ([], Throw type_error).
Proof. unfold unwrap_both. intros [H|H]; rewrite H; reflexivity. Qed.

Lemma run_unwrap_with_meta (net : network) (w resp env : value) :
  get_prop resp "data" = inr env ->
  snd (run net (unwrap_with_meta w resp)) =
  if truthy w then Normal env
  else match get_prop env "data" with inr x => Normal x | inl ex => Throw ex end.
Proof.
  intros H. unfold unwrap_with_meta, unwrap_both. destruct (truthy w); rewrite H; cbn [bind lift ret].
  - reflexivity.
  - destruct (get_prop env "data"); reflexivity.
Qed.

Lemma get_prop_plain (fs : list (string * value)) (k : string) :
  get_prop (JObj PlainObject fs) k =
  inr (match assoc k fs with Some x => x | None => JUndefined end).
Proof. cbn. destruct (assoc k fs); [reflexivity|]. destruct k; reflexivity. Qed.

(** Every method is one [call_api] with the table's method and path and the
    method's payload, followed by code that issues no request. *)
Lemma invoke_request_shape (self : CachetAPI) (o : op) :
  exists f, invoke self o =
            bind (call_api self (endpoint_method o) (endpoint_path o) (op_payload o)) f /\
            (forall v, no_request (f v)).
Proof.
  destruct o; cbn [invoke]; eexists;
    (split; [reflexivity|intros v; cbn beta;
      first [apply no_request_unwrap_both|apply no_request_unwrap_with_meta|exact I]]).
Qed.

Lemma constructor_success (opts u : value) :
  truthy opts = true -> get_prop opts "url" = inr u -> truthy u = true ->
  exists tok, get_prop opts "apiToken" = inr tok /\
    CachetAPI_constructor opts =
    ret {| options := opts;
           api := {| baseURL := u; headers := [("X-Cachet-Token", tok)] |} |}.
Proof.
  intros Ho Hu Htu. destruct (truthy_defined opts Ho) as [H1 H2].
  destruct (get_prop_defined opts "apiToken" H1 H2) as [tok Ht].
  exists tok. split; [exact Ht|].
  unfold CachetAPI_constructor. rewrite Ho. cbn [negb]. rewrite Hu. cbn [bind lift ret].
  rewrite Htu. cbn [negb bind lift ret]. rewrite Ht. reflexivity.
Qed.

(** After the request, each method only unwraps the response or returns [true]. *)
Lemma invoke_post_shape (self : CachetAPI) (o : op) :
  exists f, invoke self o =
            bind (call_api self (endpoint_method o) (endpoint_path o) (op_payload o)) f /\
            (f = unwrap_both \/ (exists w, f = unwrap_with_meta w) \/
             f = (fun _ => ret (JBool true))).
Proof.
  destruct o; cbn [invoke]; eexists; (split; [reflexivity|]);
    first [left; reflexivity | right; left; eexists; reflexivity | right; right; reflexivity].
Qed.

Lemma get_prop_throws_type_error (v : value) (k : string) (e : value) :
  get_prop v k = inl e -> e = type_error.
Proof.
  destruct v; cbn;
    repeat match goal with |- context [match ?a with _ => _ end] => destruct a end;
    congruence.
Qed.

(** Unwrapping a settled response logs nothing and either returns a value or
    throws the TypeError of a property read. *)
Lemma run_post_outcome (net : network) (f : value -> prog value) (resp : value) :
  (f = unwrap_both \/ (exists w, f = unwrap_with_meta w) \/ f = (fun _ => ret (JBool true))) ->
  exists c, run net (f resp) = ([], c) /\ ((exists v, c = Normal v) \/ c = Throw type_error).
Proof.
  assert (Hb : forall r, exists c, run net (unwrap_both r) = ([], c) /\
                 ((exists v, c = Normal v) \/ c = Throw type_error)).
  { intros r. unfold unwrap_both.
    destruct (get_prop r "data") as [e|d] eqn:E1; cbn.
    - apply get_prop_throws_type_error in E1. subst. eauto.
    - destruct (get_prop d "data") as [e|x] eqn:E2; cbn.
      + apply get_prop_throws_type_error in E2. subst. eauto.
      + eauto. }
  intros [->|[(w & ->)| ->]].
  - apply Hb.
  - unfold unwrap_with_meta. destruct (truthy w); [|apply Hb].
    destruct (get_prop resp "data") as [e|d] eqn:E1; cbn.
    + apply get_prop_throws_type_error in E1. subst. eauto.
    + eauto.
  - cbn. eauto.
Qed.

End Shapes.

Module Claims.
Import Js Prog Cachet Spec Facts Shapes Samples.

(** C1: for every operation, when the HTTP call rejects with an error [e]
    carrying a response object [r], the operation throws one new [Error]
    whose message is "Unable to <METHOD> <path>: <diagnostic>", for the
    method and path of the request it issued, and the diagnostic concatenates
    the status (if present), the status text (if present) and the
    JSON-serialized body (if present), each "if present" being JavaScript
    truthiness; when [e] carries no response, the diagnostic is [e]'s string
    form.  In both cases the original error is logged once. *)
Theorem error_normalization (self : CachetAPI) (o : op) (e : value) :
  (forall r s st d,
     truthy e = true -> get_prop e "response" = inr r -> truthy r = true ->
     get_prop r "status" = inr s -> get_prop r "statusText" = inr st ->
     get_prop r "data" = inr d ->
     exists m u b,
       run (fun _ _ _ _ => Rejected e) (invoke self o) =
       ([EvRequest (api self) m u b; EvConsoleError e],
        Throw (new_error ("Unable to " ++ method_name m ++ " " ++ u ++ ": " ++
          ((if truthy s then to_string s ++ " " else "") ++
           (if truthy st then to_string st ++ " | " else "") ++
           (if truthy d then json_text d else "")))))) /\
  (forall r,
     e <> JUndefined -> e <> JNull ->
     get_prop e "response" = inr r -> truthy r = false ->
     exists m u b,
       run (fun _ _ _ _ => Rejected e) (invoke self o) =
       ([EvRequest (api self) m u b; EvConsoleError e],
        Throw (new_error ("Unable to " ++ method_name m ++ " " ++ u ++ ": " ++ to_string e)))).
Proof.
  destruct (invoke_shape self o) as (m & u & b & f & Hi & _ & _ & _).
  rewrite Hi. split.
  - intros r s st d Hte He Htr Hs Hst Hd. exists m, u, b.
    rewrite (run_call_api_rejected _ _ _ _ _ e f eq_refl).
    rewrite (run_createError_response _ _ _ e r s st d Hte He Htr Hs Hst Hd). reflexivity.
  - intros r Hu Hn He Htr. exists m, u, b.
    rewrite (run_call_api_rejected _ _ _ _ _ e f eq_refl).
    rewrite (run_createError_no_response _ _ _ e r Hu Hn He Htr). reflexivity.
Qed.

Lemma error_normalization_witness :
  (exists m u b,
     run (fun _ _ _ _ => Rejected axios_404) (invoke demo_client (OGetComponent (JNum 7))) =
     ([EvRequest (api demo_client) m u b; EvConsoleError axios_404],
      Throw (new_error ("Unable to " ++ method_name m ++ " " ++ u ++ ": " ++
                        "404 Not Found | " ++ json_text not_found_body)))) /\
  (exists m u b,
     run (fun _ _ _ _ => Rejected network_error) (invoke demo_client OPing) =
     ([EvRequest (api demo_client) m u b; EvConsoleError network_error],
      Throw (new_error ("Unable to " ++ method_name m ++ " " ++ u ++ ": " ++
                        "Error: Network Error")))).
Proof.
  split.
  - exact (proj1 (error_normalization demo_client (OGetComponent (JNum 7)) axios_404)
             not_found_response (JNum 404) (JStr "Not Found") not_found_body
             eq_refl eq_refl eq_refl eq_refl eq_refl eq_refl).
  - exact (proj2 (error_normalization demo_client OPing network_error) JUndefined
             ltac:(discriminate) ltac:(discriminate) eq_refl eq_refl).
Defined.

(** The two runs of the witness, evaluated. *)
Example error_normalization_404 :
  run (failing axios_404) (invoke demo_client (OGetComponent (JNum 7))) =
  ([EvRequest (api demo_client) GET "/v1/components/7" None; EvConsoleError axios_404],
   Throw (new_error ("Unable to GET /v1/components/7: 404 Not Found | {" ++ dq ++ "message" ++ dq
                     ++ ":" ++ dq ++ "Not Found" ++ dq ++ "}"))).
Proof. vm_compute. reflexivity. Qed.

Example error_normalization_network :
  run (failing network_error) (invoke demo_client OPing) =
  ([EvRequest (api demo_client) GET "/v1/ping" None; EvConsoleError network_error],
   Throw (new_error "Unable to GET /v1/ping: Error: Network Error")).
Proof. vm_compute. reflexivity. Qed.

(** C2: every delete operation, for every id, returns [true] whenever the
    HTTP call settles, whatever the response (status and body are never read). *)
Theorem delete_returns_true (self : CachetAPI) (net : network) :
  (forall a m u d, exists resp, net a m u d = Resolved resp) ->
  forall i j : value,
    Forall (fun o => snd (run net (invoke self o)) = Normal (JBool true))
      [ODeleteComponent i; ODeleteComponentGroup i; ODeleteIncident i;
       ODeleteIncidentUpdate i j; ODeleteMetric i; ODeleteMetricPoint i j;
       ODeleteSubscriber i].
Proof.
  intros Hnet i j.
  eapply Forall_impl; [|apply (delete_shape self i j)].
  intros o (m & u & d & ->).
  destruct (Hnet (api self) m u d) as [resp Hr].
  rewrite (run_call_api_resolved net self m u d resp _ Hr). reflexivity.
Qed.

Lemma delete_returns_true_witness :
  Forall (fun o => snd (run (answering (JObj PlainObject [("status", JNum 500)]))
                          (invoke demo_client o)) = Normal (JBool true))
    [ODeleteComponent (JNum 1); ODeleteComponentGroup (JNum 1); ODeleteIncident (JNum 1);
     ODeleteIncidentUpdate (JNum 1) (JNum 2); ODeleteMetric (JNum 1);
     ODeleteMetricPoint (JNum 1) (JNum 2); ODeleteSubscriber (JNum 1)].
Proof.
  apply (delete_returns_true demo_client _ (fun _ _ _ _ => ex_intro _ _ eq_refl)).
Defined.

(** C4: ping and every single-record operation (get, create, update of one
    record) return the payload two [data] levels down the axios response; in
    particular ping returns "Pong!" when that is the payload. *)
Theorem single_record_unwraps_two_levels (self : CachetAPI) (net : network)
  (resp env v : value) :
  (forall a m u d, net a m u d = Resolved resp) ->
  get_prop resp "data" = inr env -> get_prop env "data" = inr v ->
  (forall o, single_record o = true -> snd (run net (invoke self o)) = Normal v) /\
  (v = JStr "Pong!" -> snd (run net (invoke self OPing)) = Normal (JStr "Pong!")).
Proof.
  intros Hnet H1 H2.
  assert (H : forall o, single_record o = true -> snd (run net (invoke self o)) = Normal v).
  { intros o Ho. destruct (single_record_shape self o Ho) as (m & u & d & E).
    rewrite E, (run_call_api_resolved net self m u d resp unwrap_both (Hnet _ _ _ _)).
    rewrite (run_unwrap_both net resp env v H1 H2). reflexivity. }
  split; [exact H|]. intros ->. apply H. reflexivity.
Qed.

Lemma single_record_unwraps_two_levels_witness :
  (forall o, single_record o = true ->
     snd (run (answering (axios_response (envelope (JStr "Pong!")))) (invoke demo_client o))
     = Normal (JStr "Pong!")) /\
  (JStr "Pong!" = JStr "Pong!" ->
     snd (run (answering (axios_response (envelope (JStr "Pong!")))) (invoke demo_client OPing))
     = Normal (JStr "Pong!")).
Proof.
  apply (single_record_unwraps_two_levels demo_client _ (axios_response (envelope (JStr "Pong!"))) (envelope (JStr "Pong!"))
           (JStr "Pong!") (fun _ _ _ _ => eq_refl) eq_refl eq_refl).
Defined.

(** C6: every operation issues exactly one HTTP request, with the method and
    the path of its row of the endpoint table, the path parameters (parent
    id, record id) interpolated as JavaScript prints them. *)
Theorem requests_follow_endpoint_table (net : network) (self : CachetAPI) (o : op) :
  exists d t c,
    run net (invoke self o) =
      (EvRequest (api self) (endpoint_method o) (endpoint_path o) d :: t, c) /\
    request_count t = 0.
Proof. apply invoke_one_request. Qed.

Example endpoint_component_group :
  endpoint_path (OGetComponentGroup (JNum 4)) = "/v1/components/groups/4" /\
  endpoint_method (OUpdateComponentGroup (JNum 4) JNull) = PUT.
Proof. split; reflexivity. Qed.

Example endpoint_incident_update :
  endpoint_path (OUpdateIncidentUpdate (JNum 3) (JStr "9") JNull) = "/v1/incidents/3/updates/9" /\
  endpoint_path (OGetIncidentUpdates (JNum 3) JUndefined) = "/v1/incidents/3/updates".
Proof. split; reflexivity. Qed.

(** C8: every invocation issues exactly one request, whatever the network
    answers (no retry); when the request fails with an error value (anything
    but undefined and null), the invocation ends right after it with one
    thrown [Error], the original error being logged once. *)
Theorem one_request_no_retry (self : CachetAPI) (o : op) (net : network) :
  request_count (fst (run net (invoke self o))) = 1 /\
  (forall e, e <> JUndefined -> e <> JNull ->
     (forall a m u d, net a m u d = Rejected e) ->
     exists m u d msg,
       run net (invoke self o) =
       ([EvRequest (api self) m u d; EvConsoleError e], Throw (new_error msg))).
Proof.
  split.
  - destruct (invoke_one_request net self o) as (d & t & c & -> & Ht).
    cbn [fst]. rewrite request_count_request, Ht. reflexivity.
  - intros e Hu Hn Hnet.
    destruct (invoke_shape self o) as (m & u & d & f & Hi & _ & _ & _).
    rewrite Hi, (run_call_api_rejected net self m u d e f (Hnet _ _ _ _)).
    destruct (run_createError_defined net u (method_name m) e Hu Hn) as [msg ->].
    eauto.
Qed.

Lemma one_request_no_retry_witness :
  request_count (fst (run (failing axios_404) (invoke demo_client (OAddComponent JNull)))) = 1 /\
  (forall e, e <> JUndefined -> e <> JNull ->
     (forall a m u d, failing axios_404 a m u d = Rejected e) ->
     exists m u d msg,
       run (failing axios_404) (invoke demo_client (OAddComponent JNull)) =
       ([EvRequest (api demo_client) m u d; EvConsoleError e], Throw (new_error msg))).
Proof. apply one_request_no_retry. Defined.

(** C9: the raw-envelope flag of getVersion, getComponents,
    getComponentGroups, getIncidents, getIncidentUpdates and getMetrics is
    read by truthiness: a truthy flag returns the service envelope, a falsy
    one its [data]; nonzero numbers, nonempty strings and objects are truthy,
    false, undefined, null, 0 and "" are falsy. *)
Theorem with_meta_truthiness (self : CachetAPI) (net : network) (resp env : value) :
  (forall a m u d, net a m u d = Resolved resp) ->
  get_prop resp "data" = inr env ->
  (forall w incident_id,
     Forall (fun o =>
       snd (run net (invoke self o)) =
       if truthy w then Normal env
       else match get_prop env "data" with inr x => Normal x | inl ex => Throw ex end)
     [OGetVersion w; OGetComponents w; OGetComponentGroups w; OGetIncidents w;
      OGetIncidentUpdates incident_id w; OGetMetrics w]) /\
  (forall z, z <> 0%Z -> truthy (JNum z) = true) /\
  (forall s, s <> "" -> truthy (JStr s) = true) /\
  (forall c fs, truthy (JObj c fs) = true) /\
  Forall (fun w => truthy w = false) [JBool false; JUndefined; JNull; JNum 0; JStr ""].
Proof.
  intros Hnet H. split; [|split; [|split; [|split]]].
  - intros w iid.
    eapply Forall_impl; [|apply (with_meta_shape self w iid)].
    intros o (m & u & d & ->).
    rewrite (run_call_api_resolved net self m u d resp _ (Hnet _ _ _ _)).
    rewrite <- (run_unwrap_with_meta net w resp env H).
    destruct (run net (unwrap_with_meta w resp)); reflexivity.
  - intros z Hz. cbn. apply Z.eqb_neq in Hz. rewrite Hz. reflexivity.
  - intros s' Hs. cbn. apply String.eqb_neq in Hs. rewrite Hs. reflexivity.
  - reflexivity.
  - repeat constructor.
Qed.

Lemma with_meta_truthiness_witness :
  (forall w incident_id,
     Forall (fun o =>
       snd (run (answering (axios_response list_envelope)) (invoke demo_client o)) =
       if truthy w then Normal list_envelope
       else match get_prop list_envelope "data" with inr x => Normal x | inl ex => Throw ex end)
     [OGetVersion w; OGetComponents w; OGetComponentGroups w; OGetIncidents w;
      OGetIncidentUpdates incident_id w; OGetMetrics w]) /\
  (forall z, z <> 0%Z -> truthy (JNum z) = true) /\
  (forall s, s <> "" -> truthy (JStr s) = true) /\
  (forall c fs, truthy (JObj c fs) = true) /\
  Forall (fun w => truthy w = false) [JBool false; JUndefined; JNull; JNum 0; JStr ""].
Proof.
  apply (with_meta_truthiness demo_client _ (axios_response list_envelope) list_envelope
           (fun _ _ _ _ => eq_refl) eq_refl).
Defined.

(** C10: in [createError], the fallback to the caught error's string form
    applies only when it has no response: with a response whose status,
    statusText and data are all absent the diagnostic is empty (the message
    ends with ": "); a present statusText is followed by " | ". *)
Theorem createError_empty_response (net : network) (url type : string) (e r s st d : value) :
  truthy e = true -> get_prop e "response" = inr r -> truthy r = true ->
  get_prop r "status" = inr s -> get_prop r "statusText" = inr st ->
  get_prop r "data" = inr d ->
  (truthy s = false -> truthy st = false -> truthy d = false ->
   run net (createError url type e) =
   ([EvConsoleError e], Normal (new_error ("Unable to " ++ type ++ " " ++ url ++ ": ")))) /\
  (truthy st = true ->
   run net (createError url type e) =
   ([EvConsoleError e],
    Normal (new_error ("Unable to " ++ type ++ " " ++ url ++ ": " ++
      (if truthy s then to_string s ++ " " else "") ++
      to_string st ++ " | " ++
      (if truthy d then json_text d else ""))))).
Proof.
  intros Hte He Htr Hs Hst Hd.
  rewrite (run_createError_response net url type e r s st d Hte He Htr Hs Hst Hd).
  split.
  - intros -> -> ->. reflexivity.
  - intros ->. rewrite string_append_assoc. reflexivity.
Qed.

Lemma createError_empty_response_witness :
  (run (failing axios_404) (createError "/v1/ping" "GET" axios_empty_response) =
   ([EvConsoleError axios_empty_response], Normal (new_error "Unable to GET /v1/ping: "))) /\
  (run (failing axios_404) (createError "/v1/ping" "GET" axios_404) =
   ([EvConsoleError axios_404],
    Normal (new_error ("Unable to GET /v1/ping: " ++ "404 " ++ "Not Found" ++ " | " ++
                       json_text not_found_body)))).
Proof.
  split.
  - exact (proj1 (createError_empty_response (failing axios_404) "/v1/ping" "GET"
             axios_empty_response (JObj PlainObject [("status", JNum 0)]) (JNum 0)
             JUndefined JUndefined eq_refl eq_refl eq_refl eq_refl eq_refl eq_refl)
             eq_refl eq_refl eq_refl).
  - exact (proj2 (createError_empty_response (failing axios_404) "/v1/ping" "GET"
             axios_404 not_found_response (JNum 404) (JStr "Not Found") not_found_body
             eq_refl eq_refl eq_refl eq_refl eq_refl eq_refl) eq_refl).
Defined.

Example createError_status_text :
  run (failing axios_404) (createError "/v1/ping" "GET" axios_404) =
  ([EvConsoleError axios_404],
   Normal (new_error ("Unable to GET /v1/ping: 404 Not Found | " ++ json_text not_found_body))).
Proof. vm_compute. reflexivity. Qed.

(** C5: on an options value that is absent or a plain object whose [url] is
    absent, undefined, null or a string, the constructor throws exactly when
    the options are absent or the url is missing or empty; otherwise it
    completes without any request, bound to the url, with the token as the
    [X-Cachet-Token] header. *)
Theorem constructor_contract (opts : value) :
  (opts = JUndefined \/ opts = JNull \/
   exists fs, opts = JObj PlainObject fs /\
     (assoc "url" fs = None \/ assoc "url" fs = Some JUndefined \/
      assoc "url" fs = Some JNull \/ exists s, assoc "url" fs = Some (JStr s))) ->
  (CachetAPI_constructor opts = throw config_error <->
   (opts = JUndefined \/ opts = JNull \/
    exists fs, opts = JObj PlainObject fs /\
      (assoc "url" fs = None \/ assoc "url" fs = Some JUndefined \/
       assoc "url" fs = Some JNull \/ assoc "url" fs = Some (JStr "")))) /\
  (forall fs s, opts = JObj PlainObject fs -> assoc "url" fs = Some (JStr s) -> s <> "" ->
     CachetAPI_constructor opts =
     ret {| options := opts;
            api := {| baseURL := JStr s;
                      headers := [("X-Cachet-Token",
                                   match assoc "apiToken" fs with
                                   | Some t => t | None => JUndefined end)] |} |}).
Proof.
  assert (Hok : forall fs s, assoc "url" fs = Some (JStr s) -> s <> "" ->
     CachetAPI_constructor (JObj PlainObject fs) =
     ret {| options := JObj PlainObject fs;
            api := {| baseURL := JStr s;
                      headers := [("X-Cachet-Token",
                                   match assoc "apiToken" fs with
                                   | Some t => t | None => JUndefined end)] |} |}).
  { intros fs s Hu Hs. unfold CachetAPI_constructor. cbn [truthy negb].
    rewrite !get_prop_plain, Hu. cbn [bind lift ret truthy negb].
    apply String.eqb_neq in Hs. rewrite Hs. reflexivity. }
  assert (Hbad : forall fs, (assoc "url" fs = None \/ assoc "url" fs = Some JUndefined \/
                             assoc "url" fs = Some JNull \/ assoc "url" fs = Some (JStr "")) ->
     CachetAPI_constructor (JObj PlainObject fs) = throw config_error).
  { intros fs H. unfold CachetAPI_constructor. cbn [truthy negb]. rewrite get_prop_plain.
    destruct H as [H|[H|[H|H]]]; rewrite H; reflexivity. }
  intros Hty. split.
  - split.
    + intros Hthrow.
      destruct Hty as [->|[->|(fs & -> & Hu)]]; [left; reflexivity|right; left; reflexivity|].
      right; right. exists fs. split; [reflexivity|].
      destruct Hu as [H|[H|[H|(s & H)]]]; [left; exact H|right; left; exact H|
                                           right; right; left; exact H|].
      right; right; right.
      destruct (String.eqb s "") eqn:Hs.
      * apply String.eqb_eq in Hs. subst s. exact H.
      * apply String.eqb_neq in Hs. rewrite (Hok fs s H Hs) in Hthrow. discriminate.
    + intros [->|[->|(fs & -> & H)]]; [reflexivity|reflexivity|]. apply Hbad, H.
  - intros fs s -> Hu Hs. apply Hok; assumption.
Qed.

Lemma constructor_contract_witness :
  (CachetAPI_constructor demo_options = throw config_error <->
   (demo_options = JUndefined \/ demo_options = JNull \/
    exists fs, demo_options = JObj PlainObject fs /\
      (assoc "url" fs = None \/ assoc "url" fs = Some JUndefined \/
       assoc "url" fs = Some JNull \/ assoc "url" fs = Some (JStr "")))) /\
  (forall fs s, demo_options = JObj PlainObject fs -> assoc "url" fs = Some (JStr s) -> s <> "" ->
     CachetAPI_constructor demo_options =
     ret {| options := demo_options;
            api := {| baseURL := JStr s;
                      headers := [("X-Cachet-Token",
                                   match assoc "apiToken" fs with
                                   | Some t => t | None => JUndefined end)] |} |}).
Proof.
  apply constructor_contract. right; right. eexists. split; [reflexivity|].
  right; right; right. eexists. reflexivity.
Defined.

Example constructor_demo : CachetAPI_constructor demo_options = ret demo_client.
Proof. reflexivity. Qed.

Example constructor_empty_url :
  CachetAPI_constructor (JObj PlainObject [("url", JStr "")]) = throw config_error.
Proof. reflexivity. Qed.

(** C7, as stated: a success response whose body lacks the envelope's
    [data] key makes ping return undefined, and a response with no body
    makes getComponent throw a TypeError, not the request error. *)
Lemma malformed_response_counterexample :
  snd (run (answering (axios_response (JObj PlainObject [("meta", JObj PlainObject [])])))
         (invoke demo_client OPing)) = Normal JUndefined /\
  snd (run (answering (JObj PlainObject [("status", JNum 204)]))
         (invoke demo_client (OGetComponent (JNum 1)))) = Throw type_error /\
  (forall msg, type_error <> new_error msg).
Proof.
  split; [reflexivity|]. split; [reflexivity|]. intros msg H. discriminate H.
Qed.

(** C7, amended: for every operation, only a failure of the HTTP call is
    turned into the request error.  When the call settles, the operation
    issues no further request, logs nothing, and either returns a value or
    throws the TypeError of a property read, never the normalized error: the
    response is not checked.  In particular ping and the single-record
    operations return undefined when the body lacks the envelope's [data]
    key, and throw the TypeError when there is no body. *)
Theorem malformed_response_unchecked (self : CachetAPI) (net : network) (resp : value) (o : op) :
  (forall a m u d, net a m u d = Resolved resp) ->
  (exists c,
     run net (invoke self o) =
       ([EvRequest (api self) (endpoint_method o) (endpoint_path o) (op_payload o)], c) /\
     ((exists v, c = Normal v) \/ c = Throw type_error) /\
     (forall msg, c <> Throw (new_error msg))) /\
  (single_record o = true ->
   (forall env, get_prop resp "data" = inr env -> get_prop env "data" = inr JUndefined ->
      exists m u d, run net (invoke self o) = ([EvRequest (api self) m u d], Normal JUndefined)) /\
   (get_prop resp "data" = inr JUndefined \/ get_prop resp "data" = inr JNull ->
      exists m u d, run net (invoke self o) = ([EvRequest (api self) m u d], Throw type_error))).
Proof.
  intros Hnet. split.
  - destruct (invoke_post_shape self o) as (f & E & Hf).
    rewrite E, (run_call_api_resolved net self _ _ _ resp f (Hnet _ _ _ _)).
    destruct (run_post_outcome net f resp Hf) as (c & -> & Hc).
    exists c. split; [reflexivity|]. split; [exact Hc|].
    intros msg ->. destruct Hc as [(v & Hv)|Hv]; discriminate Hv.
  - intros Ho. destruct (single_record_shape self o Ho) as (m & u & d & E).
    rewrite E, (run_call_api_resolved net self m u d resp unwrap_both (Hnet _ _ _ _)).
    split.
    + intros env H1 H2. rewrite (run_unwrap_both net resp env JUndefined H1 H2). eauto.
    + intros H. rewrite (run_unwrap_both_throw net resp H). eauto.
Qed.

Lemma malformed_response_unchecked_witness :
  ((exists c,
     run (answering (axios_response (JObj PlainObject []))) (invoke demo_client (OGetComponents JNull)) =
       ([EvRequest (api demo_client) (endpoint_method (OGetComponents JNull))
           (endpoint_path (OGetComponents JNull)) (op_payload (OGetComponents JNull))], c) /\
     ((exists v, c = Normal v) \/ c = Throw type_error) /\
     (forall msg, c <> Throw (new_error msg))) /\
  (single_record (OGetComponents JNull) = true ->
   (forall env, get_prop (axios_response (JObj PlainObject [])) "data" = inr env ->
      get_prop env "data" = inr JUndefined ->
      exists m u d, run (answering (axios_response (JObj PlainObject [])))
                      (invoke demo_client (OGetComponents JNull))
                    = ([EvRequest (api demo_client) m u d], Normal JUndefined)) /\
   (get_prop (axios_response (JObj PlainObject [])) "data" = inr JUndefined \/
    get_prop (axios_response (JObj PlainObject [])) "data" = inr JNull ->
      exists m u d, run (answering (axios_response (JObj PlainObject [])))
                      (invoke demo_client (OGetComponents JNull))
                    = ([EvRequest (api demo_client) m u d], Throw type_error)))) /\
  (forall env, get_prop (axios_response (JObj PlainObject [])) "data" = inr env ->
     get_prop env "data" = inr JUndefined ->
     exists m u d, run (answering (axios_response (JObj PlainObject []))) (invoke demo_client OPing)
                   = ([EvRequest (api demo_client) m u d], Normal JUndefined)).
Proof.
  split.
  - exact (malformed_response_unchecked demo_client _ (axios_response (JObj PlainObject []))
             (OGetComponents JNull) (fun _ _ _ _ => eq_refl)).
  - exact (proj1 (proj2 (malformed_response_unchecked demo_client _
             (axios_response (JObj PlainObject [])) OPing (fun _ _ _ _ => eq_refl)) eq_refl)).
Defined.

(** C3: getSubscribers and getMetricPoints take no raw-envelope flag (their
    JSDoc documents one): on the list envelope they return the unwrapped
    array, whatever the caller passes, while getComponents with a set flag
    returns the envelope. *)
Theorem list_without_raw_flag :
  snd (run (answering (axios_response list_envelope)) (invoke demo_client OGetSubscribers))
    = Normal (JArr [JObj PlainObject [("id", JNum 1)]]) /\
  snd (run (answering (axios_response list_envelope))
         (invoke demo_client (OGetMetricPoints (JNum 1))))
    = Normal (JArr [JObj PlainObject [("id", JNum 1)]]) /\
  snd (run (answering (axios_response list_envelope))
         (invoke demo_client (OGetComponents (JBool true))))
    = Normal list_envelope /\
  JArr [JObj PlainObject [("id", JNum 1)]] <> list_envelope.
Proof. split; [reflexivity|]. split; [reflexivity|]. split; [reflexivity|]. discriminate. Qed.

End Claims.

Module Extras.
Import Js Prog Cachet Spec Facts Shapes Samples.

(** X1: on any options value, the constructor throws the configuration
    error when the options are falsy or their [url] is falsy, and otherwise
    returns, without a request, a client whose axios instance has that [url]
    (any truthy value) as base URL and [apiToken] as [X-Cachet-Token]. *)
Theorem constructor_any_options (opts : value) :
  ((truthy opts = false \/ exists u, get_prop opts "url" = inr u /\ truthy u = false) ->
   CachetAPI_constructor opts = throw config_error) /\
  (forall u, truthy opts = true -> get_prop opts "url" = inr u -> truthy u = true ->
   exists tok, get_prop opts "apiToken" = inr tok /\
     CachetAPI_constructor opts =
     ret {| options := opts;
            api := {| baseURL := u; headers := [("X-Cachet-Token", tok)] |} |}).
Proof.
  split.
  - unfold CachetAPI_constructor. intros [H|(u & H1 & H2)].
    + rewrite H. reflexivity.
    + destruct (truthy opts); [|reflexivity]. cbn [negb]. rewrite H1.
      cbn [bind lift ret]. rewrite H2. reflexivity.
  - intros u. apply constructor_success.
Qed.

Lemma constructor_any_options_witness :
  ((truthy (JStr "https://demo.cachethq.io/api") = false \/
    exists u, get_prop (JStr "https://demo.cachethq.io/api") "url" = inr u /\ truthy u = false) ->
   CachetAPI_constructor (JStr "https://demo.cachethq.io/api") = throw config_error) /\
  (exists tok, get_prop (JObj PlainObject [("url", JNum 42)]) "apiToken" = inr tok /\
     CachetAPI_constructor (JObj PlainObject [("url", JNum 42)]) =
     ret {| options := JObj PlainObject [("url", JNum 42)];
            api := {| baseURL := JNum 42; headers := [("X-Cachet-Token", tok)] |} |}).
Proof.
  split.
  - exact (proj1 (constructor_any_options (JStr "https://demo.cachethq.io/api"))).
  - exact (proj2 (constructor_any_options (JObj PlainObject [("url", JNum 42)])) (JNum 42)
             eq_refl eq_refl eq_refl).
Defined.

(** X2: a client built by the constructor sends every operation's request
    through the axios instance configured with the options' url and token. *)
Theorem constructed_client_requests (opts u : value) (o : op) (net : network) :
  truthy opts = true -> get_prop opts "url" = inr u -> truthy u = true ->
  exists c tok d t r,
    CachetAPI_constructor opts = ret c /\ get_prop opts "apiToken" = inr tok /\
    run net (invoke c o) =
      (EvRequest {| baseURL := u; headers := [("X-Cachet-Token", tok)] |}
                 (endpoint_method o) (endpoint_path o) d :: t, r) /\
    request_count t = 0.
Proof.
  intros Ho Hu Htu.
  destruct (constructor_success opts u Ho Hu Htu) as (tok & Ht & Hc).
  destruct (invoke_one_request net
              {| options := opts;
                 api := {| baseURL := u; headers := [("X-Cachet-Token", tok)] |} |} o)
    as (d & t & r & E & Hn).
  exists {| options := opts;
            api := {| baseURL := u; headers := [("X-Cachet-Token", tok)] |} |}, tok, d, t, r.
  auto.
Qed.

Lemma constructed_client_requests_witness :
  exists c tok d t r,
    CachetAPI_constructor demo_options = ret c /\ get_prop demo_options "apiToken" = inr tok /\
    run (answering (axios_response (envelope (JStr "Pong!")))) (invoke c OPing) =
      (EvRequest {| baseURL := demo_url; headers := [("X-Cachet-Token", tok)] |}
                 (endpoint_method OPing) (endpoint_path OPing) d :: t, r) /\
    request_count t = 0.
Proof.
  exact (constructed_client_requests demo_options demo_url OPing _ eq_refl eq_refl eq_refl).
Defined.

(** X3: every operation hands axios its record argument unchanged as the
    request body when it creates or updates, and sends no body otherwise. *)
Theorem request_body_is_payload (self : CachetAPI) (o : op) (net : network) :
  exists t c,
    run net (invoke self o) =
      (EvRequest (api self) (endpoint_method o) (endpoint_path o) (op_payload o) :: t, c).
Proof.
  destruct (invoke_request_shape self o) as (f & -> & _).
  destruct (net (api self) (endpoint_method o) (endpoint_path o) (op_payload o)) eqn:N.
  - rewrite (run_call_api_resolved _ _ _ _ _ _ f N). destruct (run net (f response)); eauto.
  - rewrite (run_call_api_rejected _ _ _ _ _ _ f N).
    destruct (run net (createError _ _ error)); eauto.
Qed.

(** X4: whatever value other than undefined and null the HTTP call rejects
    with, the operation logs it and throws an [Error] whose message starts
    with "Unable to <METHOD> <path>: " for its row of the endpoint table. *)
Theorem rejection_message_prefix (self : CachetAPI) (o : op) (e : value) :
  e <> JUndefined -> e <> JNull ->
  exists diag,
    run (failing e) (invoke self o) =
    ([EvRequest (api self) (endpoint_method o) (endpoint_path o) (op_payload o);
      EvConsoleError e],
     Throw (new_error ("Unable to " ++ method_name (endpoint_method o) ++ " " ++
                       endpoint_path o ++ ": " ++ diag))).
Proof.
  intros Hu Hn. destruct (invoke_request_shape self o) as (f & -> & _).
  rewrite (run_call_api_rejected (failing e) _ _ _ _ e f eq_refl).
  destruct (run_createError_defined (failing e) (endpoint_path o)
              (method_name (endpoint_method o)) e Hu Hn) as [diag ->].
  eauto.
Qed.

Lemma rejection_message_prefix_witness :
  exists diag,
    run (failing (JStr "boom")) (invoke demo_client (ODeleteSubscriber (JNum 3))) =
    ([EvRequest (api demo_client) (endpoint_method (ODeleteSubscriber (JNum 3)))
        (endpoint_path (ODeleteSubscriber (JNum 3))) (op_payload (ODeleteSubscriber (JNum 3)));
      EvConsoleError (JStr "boom")],
     Throw (new_error ("Unable to " ++ method_name (endpoint_method (ODeleteSubscriber (JNum 3)))
                       ++ " " ++ endpoint_path (ODeleteSubscriber (JNum 3)) ++ ": " ++ diag))).
Proof.
  exact (rejection_message_prefix demo_client (ODeleteSubscriber (JNum 3)) (JStr "boom")
           ltac:(discriminate) ltac:(discriminate)).
Defined.

(** X5: when the HTTP call rejects with undefined or null, [createError]
    itself fails on [error.toString()]: the operation throws a TypeError
    instead of the normalized error, and nothing is logged. *)
Theorem rejection_undefined_type_error (self : CachetAPI) (o : op) (e : value) :
  e = JUndefined \/ e = JNull ->
  run (failing e) (invoke self o) =
  ([EvRequest (api self) (endpoint_method o) (endpoint_path o) (op_payload o)],
   Throw type_error).
Proof.
  intros He. destruct (invoke_request_shape self o) as (f & -> & _).
  rewrite (run_call_api_rejected (failing e) _ _ _ _ e f eq_refl).
  destruct He as [->| ->]; reflexivity.
Qed.

Lemma rejection_undefined_type_error_witness :
  run (failing JNull) (invoke demo_client OPing) =
  ([EvRequest (api demo_client) (endpoint_method OPing) (endpoint_path OPing) (op_payload OPing)],
   Throw type_error).
Proof. exact (rejection_undefined_type_error demo_client OPing JNull (or_intror eq_refl)). Defined.

(** X6: ids are put into paths without escaping, so a string id holding a
    path suffix makes one method act as another: an id "groups/<g>" turns the
    component methods into the component-group ones, "<i>/updates/<u>" an
    incident method into the incident-update one, "<m>/points" and
    "<m>/points/<p>" the metric methods into the metric-point ones. *)
Theorem id_path_aliasing (self : CachetAPI) (g x i u m p : value) :
  invoke self (OGetComponent (JStr ("groups/" ++ to_string g))) =
    invoke self (OGetComponentGroup g) /\
  invoke self (OUpdateComponent (JStr ("groups/" ++ to_string g)) x) =
    invoke self (OUpdateComponentGroup g x) /\
  invoke self (ODeleteComponent (JStr ("groups/" ++ to_string g))) =
    invoke self (ODeleteComponentGroup g) /\
  invoke self (OGetIncident (JStr (to_string i ++ "/updates/" ++ to_string u))) =
    invoke self (OGetIncidentUpdate i u) /\
  invoke self (OUpdateIncident (JStr (to_string i ++ "/updates/" ++ to_string u)) x) =
    invoke self (OUpdateIncidentUpdate i u x) /\
  invoke self (ODeleteIncident (JStr (to_string i ++ "/updates/" ++ to_string u))) =
    invoke self (ODeleteIncidentUpdate i u) /\
  invoke self (OGetMetric (JStr (to_string m ++ "/points"))) =
    invoke self (OGetMetricPoints m) /\
  invoke self (ODeleteMetric (JStr (to_string m ++ "/points/" ++ to_string p))) =
    invoke self (ODeleteMetricPoint m p).
Proof. repeat split. Qed.

(** X7: ids enter a request only through their string form: two ids that
    print alike (the number 5 and the string "5") make every method that
    takes them issue the same request and return the same result. *)
Theorem ids_by_string_form (self : CachetAPI) (i i' j j' x w : value) :
  to_string i = to_string i' -> to_string j = to_string j' ->
  Forall (fun '(o, o') => invoke self o = invoke self o')
    [(OGetComponent i, OGetComponent i'); (OUpdateComponent i x, OUpdateComponent i' x);
     (ODeleteComponent i, ODeleteComponent i');
     (OGetComponentGroup i, OGetComponentGroup i');
     (OUpdateComponentGroup i x, OUpdateComponentGroup i' x);
     (ODeleteComponentGroup i, ODeleteComponentGroup i');
     (OGetIncident i, OGetIncident i'); (OUpdateIncident i x, OUpdateIncident i' x);
     (ODeleteIncident i, ODeleteIncident i');
     (OGetIncidentUpdates i w, OGetIncidentUpdates i' w);
     (OGetIncidentUpdate i j, OGetIncidentUpdate i' j');
     (OAddIncidentUpdate i x, OAddIncidentUpdate i' x);
     (OUpdateIncidentUpdate i j x, OUpdateIncidentUpdate i' j' x);
     (ODeleteIncidentUpdate i j, ODeleteIncidentUpdate i' j');
     (OGetMetric i, OGetMetric i'); (ODeleteMetric i, ODeleteMetric i');
     (OGetMetricPoints i, OGetMetricPoints i');
     (OAddMetricPoint i x, OAddMetricPoint i' x);
     (ODeleteMetricPoint i j, ODeleteMetricPoint i' j');
     (ODeleteSubscriber i, ODeleteSubscriber i')].
Proof.
  intros Hi Hj.
  repeat apply Forall_cons; try apply Forall_nil; cbn [invoke];
    unfold getComponent, updateComponent, deleteComponent, getComponentGroup,
      updateComponentGroup, deleteComponentGroup, getIncident, updateIncident,
      deleteIncident, getIncidentUpdates, getIncidentUpdate, addIncidentUpdate,
      updateIncidentUpdate, deleteIncidentUpdate, getMetric, deleteMetric,
      getMetricPoints, addMetricPoint, deleteMetricPoint, deleteSubscriber;
    rewrite ?Hi, ?Hj; reflexivity.
Qed.

Lemma ids_by_string_form_witness :
  Forall (fun '(o, o') => invoke demo_client o = invoke demo_client o')
    [(OGetComponent (JNum 5), OGetComponent (JStr "5"));
     (OUpdateComponent (JNum 5) JNull, OUpdateComponent (JStr "5") JNull);
     (ODeleteComponent (JNum 5), ODeleteComponent (JStr "5"));
     (OGetComponentGroup (JNum 5), OGetComponentGroup (JStr "5"));
     (OUpdateComponentGroup (JNum 5) JNull, OUpdateComponentGroup (JStr "5") JNull);
     (ODeleteComponentGroup (JNum 5), ODeleteComponentGroup (JStr "5"));
     (OGetIncident (JNum 5), OGetIncident (JStr "5"));
     (OUpdateIncident (JNum 5) JNull, OUpdateIncident (JStr "5") JNull);
     (ODeleteIncident (JNum 5), ODeleteIncident (JStr "5"));
     (OGetIncidentUpdates (JNum 5) JNull, OGetIncidentUpdates (JStr "5") JNull);
     (OGetIncidentUpdate (JNum 5) (JNum 7), OGetIncidentUpdate (JStr "5") (JStr "7"));
     (OAddIncidentUpdate (JNum 5) JNull, OAddIncidentUpdate (JStr "5") JNull);
     (OUpdateIncidentUpdate (JNum 5) (JNum 7) JNull, OUpdateIncidentUpdate (JStr "5") (JStr "7") JNull);
     (ODeleteIncidentUpdate (JNum 5) (JNum 7), ODeleteIncidentUpdate (JStr "5") (JStr "7"));
     (OGetMetric (JNum 5), OGetMetric (JStr "5")); (ODeleteMetric (JNum 5), ODeleteMetric (JStr "5"));
     (OGetMetricPoints (JNum 5), OGetMetricPoints (JStr "5"));
     (OAddMetricPoint (JNum 5) JNull, OAddMetricPoint (JStr "5") JNull);
     (ODeleteMetricPoint (JNum 5) (JNum 7), ODeleteMetricPoint (JStr "5") (JStr "7"));
     (ODeleteSubscriber (JNum 5), ODeleteSubscriber (JStr "5"))].
Proof.
  exact (ids_by_string_form demo_client (JNum 5) (JStr "5") (JNum 7) (JStr "7") JNull JNull
           eq_refl eq_refl).
Defined.

End Extras.
